(** * util::nn: a non-nullable pointer wrapper (nn.hpp)

    A shallow embedding of the class template [nn<PtrType>] and of its
    helpers, followed by the properties its specification states.

    Conventions of the embedding.
    - An address is a natural number; address [0] is the null pointer.
    - A function that may throw returns a [result]; the exception is a value.
    - A member function taking [*this] (or an argument) by rvalue reference
      and moving out of it returns, next to its result, the state it leaves
      in the moved-from object.
    - The pointer-like type [PtrType] is a type with the operations the
      template uses on it, collected in the class [PtrLike]. *)

From Stdlib Require Import NArith ZArith List Ascii String Bool Lia.
From Stdlib Require Import DecimalString DecimalPos DecimalN.
Import ListNotations.

Local Open Scope N_scope.

(** ** Exceptions *)

(** The two exceptions that can leave the functions of nn.hpp:
    [std::runtime_error] thrown by [nn_detail::check], and [std::bad_alloc]
    thrown by the allocator under [std::make_unique]/[std::make_shared]. *)
Inductive exn : Type :=
| runtime_error (what : string)
| bad_alloc.

Inductive result (A : Type) : Type :=
| Ret (a : A)
| Throw (e : exn).

Arguments Ret {A} a.
Arguments Throw {A} e.

Definition bind {A B : Type} (r : result A) (k : A -> result B) : result B :=
  match r with
  | Ret a => k a
  | Throw e => Throw e
  end.

Notation "x <- r ;; k" := (bind r (fun x => k))
  (at level 61, r at next level, right associativity).
Notation "' pat <- r ;; k" := (bind r (fun x => match x with pat => k end))
  (at level 61, pat pattern, r at next level, right associativity).

(** ** std::source_location *)

Record source_location : Type := SourceLocation {
  line : N;
  column : N;
  file_name : string
}.

(** [operator<<] of an unsigned integer on a stream: its decimal digits. *)
Definition decimal (n : N) : string := NilZero.string_of_uint (N.to_uint n).

(** A decimal digit, and a string of decimal digits. *)
Definition is_digit (c : Ascii.ascii) : bool :=
  (48 <=? Ascii.N_of_ascii c) && (Ascii.N_of_ascii c <=? 57).

Fixpoint all_digits (s : string) : bool :=
  match s with
  | EmptyString => true
  | String c s' => is_digit c && all_digits s'
  end.

(** ** Pointer-like types *)

Definition addr : Type := N.
Definition null : addr := 0.

(** What the template uses of [PtrType]:
    - [is_null v] is the value of [!v];
    - [address v] is [&*v], the address [operator*] dereferences;
    - [moved_from v] is the state in which the move constructor of
      [PtrType] leaves an object that held [v];
    - [member_get] is the member function [PtrType::get], when [PtrType]
      declares one. *)
Class PtrLike (PtrType : Type) : Type := {
  is_null : PtrType -> bool;
  address : PtrType -> addr;
  moved_from : PtrType -> PtrType;
  member_get : option (PtrType -> addr)
}.

(** A raw pointer [T*]. Moving a raw pointer copies it; it has no members. *)
Record raw_ptr : Type := RawPtr { raw_addr : addr }.

(** [std::unique_ptr<T>]: the owned address, [0] when it owns nothing. *)
Record unique_ptr : Type := UniquePtr { unique_get : addr }.

(** [std::shared_ptr<T>]: the control block it shares ownership through
    ([None] when it owns nothing) and the stored pointer returned by [get()].
    The aliasing constructor makes the two independent. [operator bool] and
    the comparisons look at the stored pointer only. *)
Record shared_ptr : Type := SharedPtr {
  owner : option N;
  shared_get : addr
}.

Definition unique_nullptr : unique_ptr := UniquePtr null.
Definition shared_nullptr : shared_ptr := SharedPtr None null.

(** [std::shared_ptr<T>(r, p)], the aliasing constructor: shares ownership
    with [r] and stores [p]. *)
Definition shared_ptr_alias (r : shared_ptr) (p : addr) : shared_ptr :=
  SharedPtr (owner r) p.

#[export] Instance raw_ptr_like : PtrLike raw_ptr := {
  is_null p := raw_addr p =? null;
  address p := raw_addr p;
  moved_from p := p;
  member_get := None
}.

#[export] Instance unique_ptr_like : PtrLike unique_ptr := {
  is_null p := unique_get p =? null;
  address p := unique_get p;
  moved_from _ := unique_nullptr;
  member_get := Some unique_get
}.

#[export] Instance shared_ptr_like : PtrLike shared_ptr := {
  is_null p := shared_get p =? null;
  address p := shared_get p;
  moved_from _ := shared_nullptr;
  member_get := Some shared_get
}.

(** [PtrType dst(std::move(src))]: the new object, and what is left in
    [src]. *)
Definition move_construct {PtrType : Type} `{PtrLike PtrType}
    (src : PtrType) : PtrType * PtrType :=
  (src, moved_from src).

(** ** nn_detail::check *)

Definition check_message (loc : source_location) : string :=
  ("nn check failed at " ++ decimal (line loc) ++ ":" ++ decimal (column loc)
     ++ " of " ++ file_name loc)%string.

Definition check {T : Type} `{PtrLike T} (v : T) (loc : source_location)
    : result unit :=
  if is_null v then Throw (runtime_error (check_message loc)) else Ret tt.

(** ** The class template nn<PtrType> *)

(** The only data member is the private backing pointer [ptr]. The record
    constructor [mk_nn] is the member initialiser [ptr(...)]; the public
    constructors are the functions below. *)
Record nn (PtrType : Type) : Type := mk_nn { ptr : PtrType }.

Arguments mk_nn {PtrType} ptr.
Arguments ptr {PtrType} n.

Section Handle.
Context {PtrType : Type} `{PtrLike PtrType}.

(** [explicit nn(const PtrType& arg, loc)] *)
Definition nn_ctor (arg : PtrType) (loc : source_location)
    : result (nn PtrType) :=
  let this := mk_nn arg in
  _ <- check (ptr this) loc ;;
  Ret this.

(** [explicit nn(PtrType&& arg, loc)]; the second component is the state
    left in [arg]. *)
Definition nn_ctor_rv (arg : PtrType) (loc : source_location)
    : result (nn PtrType) * PtrType :=
  let '(p, arg') := move_construct arg in
  let this := mk_nn p in
  (_ <- check (ptr this) loc ;; Ret this, arg').

(** [operator->]: [&*ptr]. *)
Definition nn_arrow (this : nn PtrType) : addr := address (ptr this).

(** [operator const PtrType&() const&] *)
Definition nn_conv (this : nn PtrType) : PtrType := ptr this.

(** [operator PtrType&&() &&], used to initialise a [PtrType]: the value
    received and the handle as it is left. *)
Definition nn_conv_rv (this : nn PtrType) : PtrType * nn PtrType :=
  let '(p, rest) := move_construct (ptr this) in (p, mk_nn rest).

(** [const PtrType& as_nullable() const&] *)
Definition as_nullable (this : nn PtrType) : PtrType := ptr this.

(** [PtrType&& as_nullable() &&], used to initialise a [PtrType]. *)
Definition as_nullable_rv (this : nn PtrType) : PtrType * nn PtrType :=
  let '(p, rest) := move_construct (ptr this) in (p, mk_nn rest).

(** [operator PtrType&&() &&] and [PtrType&& as_nullable() &&] as they
    are: both return [std::move(ptr)], an rvalue reference to the member,
    and the handle afterwards holds what the caller leaves in the object
    referred to. [use] is what the caller does with the reference: from
    the value it finds there, its result and the value it leaves. Binding
    the reference and no more is [fun p => (tt, p)]; initialising a
    [PtrType] from it is [move_construct], as in [nn_conv_rv] and
    [as_nullable_rv] above. *)
Definition nn_conv_rv_with {R : Type} (use : PtrType -> R * PtrType)
    (this : nn PtrType) : R * nn PtrType :=
  let '(r, rest) := use (ptr this) in (r, mk_nn rest).

Definition as_nullable_rv_with {R : Type} (use : PtrType -> R * PtrType)
    (this : nn PtrType) : R * nn PtrType :=
  let '(r, rest) := use (ptr this) in (r, mk_nn rest).

(** [element_type* get() const { return ptr.get(); }]. The body is
    well-formed only when [PtrType] has a member [get]; [None] stands for
    a call that does not instantiate. *)
Definition nn_get (this : nn PtrType) : option addr :=
  match member_get with
  | Some get => Some (get (ptr this))
  | None => None
  end.

(** The class invariant the wrapper is meant to maintain. *)
Definition valid (this : nn PtrType) : Prop := is_null (ptr this) = false.
End Handle.

(** ** Type-converting constructors *)

(** The three library traits the [requires] clauses consult, for one pair
    [(PtrType, OtherType)]:
    [std::is_constructible_v<PtrType, OtherType>],
    [std::is_convertible_v<OtherType, PtrType>] and
    [std::is_pointer_v<OtherType>]. *)
Record type_traits : Type := TypeTraits {
  is_constructible : bool;
  is_convertible : bool;
  is_pointer : bool
}.

(** The four constructor templates taking an [nn<OtherType>], in the order
    of the source. *)
Inductive converting_ctor : Type :=
| explicit_copy
| explicit_move
| implicit_copy
| implicit_move.

(** The [requires] clause of each template. *)
Definition requires (c : converting_ctor) (t : type_traits) : bool :=
  match c with
  | explicit_copy => is_constructible t && negb (is_convertible t)
  | explicit_move =>
      is_constructible t && negb (is_convertible t) && negb (is_pointer t)
  | implicit_copy => is_convertible t
  | implicit_move => is_convertible t && negb (is_pointer t)
  end.

(** Whether the template is declared [explicit]. *)
Definition is_explicit (c : converting_ctor) : bool :=
  match c with
  | explicit_copy | explicit_move => true
  | implicit_copy | implicit_move => false
  end.

(** Whether the parameter is [nn<OtherType>&&] (a move) rather than
    [const nn<OtherType>&] (a copy). *)
Definition takes_rvalue (c : converting_ctor) : bool :=
  match c with
  | explicit_move | implicit_move => true
  | explicit_copy | implicit_copy => false
  end.

Section Converting.
Context {PtrType OtherType : Type}.
Context `{PtrLike PtrType} `{PtrLike OtherType}.

(** The constructor of [PtrType] taking a [const OtherType&], which the
    member initialiser of the copying templates calls. The [requires]
    clauses do not ask for it, and not every pair of types has one:
    [std::unique_ptr] has no constructor from a [const std::unique_ptr&],
    and for such a pair the copying templates do not instantiate. *)
Variable construct_copy : OtherType -> PtrType.

(** [nn(const nn<OtherType>& other)
      : ptr(other.operator const OtherType&()) {}] *)
Definition nn_copy_from (other : nn OtherType) : nn PtrType :=
  mk_nn (construct_copy (nn_conv other)).

(** The constructor of [PtrType] taking an [OtherType&&], the one
    [is_constructible_v<PtrType, OtherType>] asks for. *)
Variable construct : OtherType -> PtrType.

(** [nn(nn<OtherType>&& other)
      : ptr(std::move(other).operator OtherType&&()) {}];
    the second component is the state left in [other]. *)
Definition nn_move_from (other : nn OtherType) : nn PtrType * nn OtherType :=
  let '(p, other') := nn_conv_rv other in
  (mk_nn (construct p), other').

(** The constructor of [PtrType] taking an [OtherType] and an
    [element_type*], as found by
    [is_constructible_v<PtrType, OtherType, element_type*>]. *)
Variable construct2 : OtherType -> raw_ptr -> PtrType.

(** [nn(const nn<OtherType>& ownership_ptr, nn<element_type*> target_ptr)
      : ptr(ownership_ptr.operator const OtherType&(), target_ptr) {}] *)
Definition nn_alias (ownership_ptr : nn OtherType) (target_ptr : nn raw_ptr)
    : nn PtrType :=
  mk_nn (construct2 (nn_conv ownership_ptr) (nn_conv target_ptr)).
End Converting.

(** Running one of the four templates on a source handle: the new handle
    and the source afterwards. [init] is the constructor of [PtrType] that
    the member initialiser of the template calls: the one taking a
    [const OtherType&] in a copying template, the one taking an
    [OtherType&&] in a moving template. *)
Definition converting_construct {PtrType OtherType : Type}
    `{PtrLike OtherType} (init : OtherType -> PtrType)
    (c : converting_ctor) (other : nn OtherType)
    : nn PtrType * nn OtherType :=
  if takes_rvalue c then nn_move_from init other
  else (nn_copy_from init other, other).

(** Whether the member initialiser of a template is well-formed, so that
    the template instantiates: a moving template initialises [ptr] from an
    [OtherType&&], which is what [is_constructible_v<PtrType, OtherType>]
    tests; a copying template initialises it from a [const OtherType&],
    which is [from_const_ref], the value of
    [is_constructible_v<PtrType, const OtherType&>]. *)
Definition body_well_formed (t : type_traits) (from_const_ref : bool)
    (c : converting_ctor) : bool :=
  if takes_rvalue c then is_constructible t else from_const_ref.

(** A handle can be constructed through a template when its [requires]
    clause holds and its body instantiates. *)
Definition constructs_through (t : type_traits) (from_const_ref : bool)
    (c : converting_ctor) : bool :=
  requires c t && body_well_formed t from_const_ref c.

(** ** The effect of the public operations on the handle they are applied to *)

(** The operations a caller can apply to an existing handle. Those declared
    [const] (or taking the handle by [const&]) leave it as it is. The
    three others initialise an object from [std::move(ptr)], which moves
    out of [ptr]: for the two conversions qualified [&&] the operation
    meant is the initialisation of a [PtrType] from the reference they
    return, not the bare call, which changes nothing (see
    [nn_conv_rv_with]). *)
Inductive handle_op : Type :=
| op_star              (* operator*() const *)
| op_arrow             (* operator->() const *)
| op_conv              (* operator const PtrType&() const& *)
| op_conv_rv           (* PtrType p(std::move(h)), through
                          operator PtrType&&() && *)
| op_as_nullable       (* as_nullable() const& *)
| op_as_nullable_rv    (* PtrType p(std::move(h).as_nullable()), through
                          as_nullable() && *)
| op_get               (* get() const *)
| op_copy_source       (* argument of a constructor taking const nn<...>& *)
| op_move_source       (* nn<...> n(std::move(h)): argument of a
                          constructor taking nn<...>&& *)
| op_compare           (* operand of a comparison, taken by const& *)
| op_hash.             (* argument of std::hash, taken by const& *)

Definition moves_out (o : handle_op) : bool :=
  match o with
  | op_conv_rv | op_as_nullable_rv | op_move_source => true
  | _ => false
  end.

Definition after {PtrType : Type} `{PtrLike PtrType}
    (o : handle_op) (this : nn PtrType) : nn PtrType :=
  match o with
  | op_conv_rv => snd (nn_conv_rv this)
  | op_as_nullable_rv => snd (as_nullable_rv this)
  | op_move_source => snd (nn_move_from (fun p => p) this)
  | _ => this
  end.

(** ** Comparisons *)

(** [operator==] and [operator<] of the underlying types [L] and [R]. *)
Class Comparable (L R : Type) : Type := {
  ptr_eqb : L -> R -> bool;
  ptr_ltb : L -> R -> bool
}.

(** Built-in comparison of raw pointers, and the comparisons of the smart
    pointers, which compare what [get()] returns. *)
#[export] Instance raw_ptr_cmp : Comparable raw_ptr raw_ptr := {
  ptr_eqb l r := raw_addr l =? raw_addr r;
  ptr_ltb l r := raw_addr l <? raw_addr r
}.

#[export] Instance unique_ptr_cmp : Comparable unique_ptr unique_ptr := {
  ptr_eqb l r := unique_get l =? unique_get r;
  ptr_ltb l r := unique_get l <? unique_get r
}.

#[export] Instance shared_ptr_cmp : Comparable shared_ptr shared_ptr := {
  ptr_eqb l r := shared_get l =? shared_get r;
  ptr_ltb l r := shared_get l <? shared_get r
}.

(** The shapes are named after their operands: [h] for a handle, [r] for a
    value that is not one. *)
Section BaseComparisons.
Context {L R : Type} `{Comparable L R}.

(** [bool operator==(const nn<L>& l, const R& r) { return l.ptr == r; }] *)
Definition eq_hr (l : nn L) (r : R) : bool := ptr_eqb (ptr l) r.
(** [bool operator==(const L& l, const nn<R>& r) { return l == r.ptr; }] *)
Definition eq_rh (l : L) (r : nn R) : bool := ptr_eqb l (ptr r).
(** [bool operator==(const nn<L>& l, const nn<R>& r)] *)
Definition eq_hh (l : nn L) (r : nn R) : bool := ptr_eqb (ptr l) (ptr r).

(** [bool operator<(const nn<L>& l, const R& r) { return l.ptr < r; }] *)
Definition lt_hr (l : nn L) (r : R) : bool := ptr_ltb (ptr l) r.
(** [bool operator<(const L& l, const nn<R>& r) { return l < r.ptr; }] *)
Definition lt_rh (l : L) (r : nn R) : bool := ptr_ltb l (ptr r).
(** [bool operator<(const nn<L>& l, const nn<R>& r)] *)
Definition lt_hh (l : nn L) (r : nn R) : bool := ptr_ltb (ptr l) (ptr r).

(** [NN_DERIVED_OPERATORS(>=, !(l < r))] *)
Definition ge_hr (l : nn L) (r : R) : bool := negb (lt_hr l r).
Definition ge_rh (l : L) (r : nn R) : bool := negb (lt_rh l r).
Definition ge_hh (l : nn L) (r : nn R) : bool := negb (lt_hh l r).

(** [NN_DERIVED_OPERATORS(!=, !(l == r))] *)
Definition ne_hr (l : nn L) (r : R) : bool := negb (eq_hr l r).
Definition ne_rh (l : L) (r : nn R) : bool := negb (eq_rh l r).
Definition ne_hh (l : nn L) (r : nn R) : bool := negb (eq_hh l r).
End BaseComparisons.

(** The operators whose expansion swaps the operands need [R < L]. *)
Section FlippedComparisons.
Context {L R : Type} `{Comparable R L}.

(** [NN_DERIVED_OPERATORS(>, r < l)] *)
Definition gt_hr (l : nn L) (r : R) : bool := lt_rh r l.
Definition gt_rh (l : L) (r : nn R) : bool := lt_hr r l.
Definition gt_hh (l : nn L) (r : nn R) : bool := lt_hh r l.

(** [NN_DERIVED_OPERATORS(<=, !(l > r))] *)
Definition le_hr (l : nn L) (r : R) : bool := negb (gt_hr l r).
Definition le_rh (l : L) (r : nn R) : bool := negb (gt_rh l r).
Definition le_hh (l : nn L) (r : nn R) : bool := negb (gt_hh l r).
End FlippedComparisons.

(** ** std::hash<nn<T>> *)

(** [size_t operator()(const nn<T>& obj) const
      { return std::hash<T>{}(obj.as_nullable()); }],
    over the hash [std_hash] of the underlying type. *)
Definition nn_hash {T : Type} (std_hash : T -> N) (obj : nn T) : N :=
  std_hash (as_nullable obj).

(** ** The free store *)

(** Objects of type [T] live in cells; the cell of index [i] has address
    [i + 1], so that no object sits at the null address. [capacity] bounds
    the number of cells: a [new] beyond it throws [std::bad_alloc]. *)
Record heap (T : Type) : Type := Heap {
  cells : list T;
  capacity : nat
}.

Arguments Heap {T} cells capacity.
Arguments cells {T} h.
Arguments capacity {T} h.

Section FreeStore.
Context {T : Type}.

(** [new T(v)] *)
Definition operator_new (v : T) (m : heap T) : result (addr * heap T) :=
  if Nat.ltb (List.length (cells m)) (capacity m)
  then Ret (N.of_nat (S (List.length (cells m))),
            Heap (cells m ++ [v]) (capacity m))
  else Throw bad_alloc.

(** Reading the object at an address; [None] where there is none. *)
Definition load (m : heap T) (a : addr) : option T :=
  if a =? null then None else nth_error (cells m) (N.to_nat (N.pred a)).

(** [std::make_unique<T>(v)] *)
Definition make_unique (v : T) (m : heap T) : result (unique_ptr * heap T) :=
  '(a, m') <- operator_new v m ;;
  Ret (UniquePtr a, m').

(** [std::make_shared<T>(v)]; the control block is named after the object
    it is allocated with. *)
Definition make_shared (v : T) (m : heap T) : result (shared_ptr * heap T) :=
  '(a, m') <- operator_new v m ;;
  Ret (SharedPtr (Some a) a, m').

(** [element_type& operator*() const { return *ptr; }], read through the
    store. *)
Definition nn_star {PtrType : Type} `{PtrLike PtrType}
    (m : heap T) (this : nn PtrType) : option T :=
  load m (address (ptr this)).

(** ** Factories *)

(** [return nn_unique_ptr<T>(std::make_unique<T>(args...));]
    [loc] is the location of that construction. *)
Definition nn_make_unique (v : T) (m : heap T) (loc : source_location)
    : result (nn unique_ptr * heap T) :=
  '(p, m') <- make_unique v m ;;
  this <- fst (nn_ctor_rv p loc) ;;
  Ret (this, m').

(** [return nn_shared_ptr<T>(std::make_shared<T>(args...));] *)
Definition nn_make_shared (v : T) (m : heap T) (loc : source_location)
    : result (nn shared_ptr * heap T) :=
  '(p, m') <- make_shared v m ;;
  this <- fst (nn_ctor_rv p loc) ;;
  Ret (this, m').
End FreeStore.

(** ** Casts *)

Section Casts.
(** Classes, and [dynamic_cast<T*>] on an address. *)
Variable class_id : Type.
Variable dynamic_cast : class_id -> addr -> addr.

(** [[
    auto raw_ptr = dynamic_cast<T*>(org_ptr.get());
    if (!raw_ptr) {
      return nullptr;
    } else {
      return std::shared_ptr<T>(org_ptr.as_nullable(), raw_ptr);
    }
    ]]
    [org_ptr.get()] is [ptr.get()] of a [std::shared_ptr]. *)
Definition nn_dynamic_pointer_cast (T : class_id) (org_ptr : nn shared_ptr)
    : shared_ptr :=
  let raw_ptr := dynamic_cast T (shared_get (ptr org_ptr)) in
  if raw_ptr =? null
  then shared_nullptr
  else shared_ptr_alias (as_nullable org_ptr) raw_ptr.
End Casts.

(** ** The remaining casts *)

Section StaticCast.
(** [static_cast<T*>] on an address, for the pair of classes of one
    instantiation. *)
Variable static_cast : addr -> addr.

(** [[
    auto raw_ptr = static_cast<T*>(org_ptr.get());
    std::shared_ptr<T> nullable_ptr(org_ptr.as_nullable(), raw_ptr);
    return nn_shared_ptr<T>(std::move(nullable_ptr));
    ]]
    [loc] is the location of the construction in the [return]. *)
Definition nn_static_pointer_cast (org_ptr : nn shared_ptr)
    (loc : source_location) : result (nn shared_ptr) :=
  let raw_ptr := static_cast (shared_get (ptr org_ptr)) in
  let nullable_ptr := shared_ptr_alias (as_nullable org_ptr) raw_ptr in
  fst (nn_ctor_rv nullable_ptr loc).
End StaticCast.

(** [const_cast<T*>] changes the type of a pointer, not its address. *)
Definition const_cast (p : addr) : addr := p.

(** [[
    auto raw_ptr = const_cast<T*>(org_ptr.get());
    std::shared_ptr<T> nullable_ptr(org_ptr.as_nullable(), raw_ptr);
    return nn_shared_ptr<T>(std::move(nullable_ptr));
    ]] *)
Definition nn_const_pointer_cast (org_ptr : nn shared_ptr)
    (loc : source_location) : result (nn shared_ptr) :=
  let raw_ptr := const_cast (shared_get (ptr org_ptr)) in
  let nullable_ptr := shared_ptr_alias (as_nullable org_ptr) raw_ptr in
  fst (nn_ctor_rv nullable_ptr loc).

(** The aliasing constructor of [std::shared_ptr], as the two-argument
    constructor of [nn] passes its arguments to it: the target handle
    converts to the raw pointer it holds. *)
Definition shared_ptr_alias_raw (r : shared_ptr) (p : raw_ptr) : shared_ptr :=
  shared_ptr_alias r (raw_addr p).

(** ** nn_addr *)

(** [nn<T*> nn_addr(T& object) { return nn<T*>(&object); }], and the same
    for [const T&]. A reference is the address of the object it is bound
    to. [address_of] is the [operator&] of [T] on the object at an
    address: the built-in one returns that address, a class may declare
    one that returns something else. *)
Definition nn_addr (address_of : addr -> addr) (object : addr)
    (loc : source_location) : result (nn raw_ptr) :=
  fst (nn_ctor_rv (RawPtr (address_of object)) loc).

(** ** nn_enable_shared_from_this *)

(** What can leave [nn_shared_from_this]: [std::bad_weak_ptr], thrown by
    [shared_from_this] on an object that no [std::shared_ptr] owns, or an
    exception of nn.hpp. *)
Inductive thrown : Type :=
| bad_weak_ptr
| thrown_exn (e : exn).

(** The base subobject [std::enable_shared_from_this<T>] of an object: the
    address of the object and its member [weak_this], the control block
    that owns the object while there is one. *)
Record enable_shared_from_this : Type := EnableSharedFromThis {
  this_addr : addr;
  weak_this : option N
}.

(** [this->shared_from_this()] *)
Definition shared_from_this (this : enable_shared_from_this)
    : thrown + shared_ptr :=
  match weak_this this with
  | Some c => inr (SharedPtr (Some c) (this_addr this))
  | None => inl bad_weak_ptr
  end.

(** [return nn_shared_ptr<T>(this->shared_from_this());], alike in the
    [const] overload. *)
Definition nn_shared_from_this (this : enable_shared_from_this)
    (loc : source_location) : thrown + nn shared_ptr :=
  match shared_from_this this with
  | inl e => inl e
  | inr p =>
      match fst (nn_ctor_rv p loc) with
      | Ret h => inr h
      | Throw e => inl (thrown_exn e)
      end
  end.

(** ** Comparison with nullptr *)

(** [std::nullptr_t] has one value. *)
Definition nullptr_t : Type := unit.
Definition nullptr : nullptr_t := tt.

(** The comparisons of the smart pointers with [nullptr]: [x == nullptr]
    is [!x], and [<] is that of [x.get()] with the null pointer. *)
#[export] Instance unique_ptr_nullptr_cmp : Comparable unique_ptr nullptr_t := {
  ptr_eqb l _ := unique_get l =? null;
  ptr_ltb l _ := unique_get l <? null
}.

#[export] Instance nullptr_unique_ptr_cmp : Comparable nullptr_t unique_ptr := {
  ptr_eqb _ r := unique_get r =? null;
  ptr_ltb _ r := null <? unique_get r
}.

#[export] Instance shared_ptr_nullptr_cmp : Comparable shared_ptr nullptr_t := {
  ptr_eqb l _ := shared_get l =? null;
  ptr_ltb l _ := shared_get l <? null
}.

#[export] Instance nullptr_shared_ptr_cmp : Comparable nullptr_t shared_ptr := {
  ptr_eqb _ r := shared_get r =? null;
  ptr_ltb _ r := null <? shared_get r
}.

(** * Properties *)

(** ** The checked constructor *)

Section CheckedConstruction.
Context {PtrType : Type} `{PtrLike PtrType}.

Lemma check_null (v : PtrType) (loc : source_location) :
  is_null v = true -> check v loc = Throw (runtime_error (check_message loc)).
Proof. intros Hnull. unfold check. now rewrite Hnull. Qed.

Lemma check_nonnull (v : PtrType) (loc : source_location) :
  is_null v = false -> check v loc = Ret tt.
Proof. intros Hnn. unfold check. now rewrite Hnn. Qed.

Lemma nn_ctor_null (arg : PtrType) (loc : source_location) :
  is_null arg = true ->
  nn_ctor arg loc = Throw (runtime_error (check_message loc)).
Proof. intros Hnull. unfold nn_ctor. cbn. now rewrite check_null. Qed.

Lemma nn_ctor_nonnull (arg : PtrType) (loc : source_location) :
  is_null arg = false -> nn_ctor arg loc = Ret (mk_nn arg).
Proof. intros Hnn. unfold nn_ctor. cbn. now rewrite check_nonnull. Qed.

Lemma nn_ctor_rv_fst (arg : PtrType) (loc : source_location) :
  fst (nn_ctor_rv arg loc) = nn_ctor arg loc.
Proof. reflexivity. Qed.

Lemma nn_ctor_rv_snd (arg : PtrType) (loc : source_location) :
  snd (nn_ctor_rv arg loc) = moved_from arg.
Proof. reflexivity. Qed.

(** A handle comes out of the checked constructor only for a non-null
    argument, and then stores it. *)
Lemma nn_ctor_Ret (arg : PtrType) (loc : source_location) (h : nn PtrType) :
  nn_ctor arg loc = Ret h -> is_null arg = false /\ h = mk_nn arg.
Proof.
  intros Hctor. destruct (is_null arg) eqn:Harg.
  - rewrite nn_ctor_null in Hctor by assumption. discriminate.
  - rewrite nn_ctor_nonnull in Hctor by assumption.
    split; [reflexivity | congruence].
Qed.

End CheckedConstruction.

(** The diagnostic spelled out. *)
Lemma check_message_spelled (l c : N) (f : string) :
  check_message (SourceLocation l c f) =
  ("nn check failed at " ++ decimal l ++ ":" ++ decimal c ++ " of " ++ f)%string.
Proof. reflexivity. Qed.

(** *** The diagnostic names its location *)

Lemma string_of_uint_digits (d : Decimal.uint) :
  all_digits (NilEmpty.string_of_uint d) = true.
Proof. induction d; cbn; auto. Qed.

Lemma decimal_digits (n : N) : all_digits (decimal n) = true.
Proof.
  unfold decimal, NilZero.string_of_uint.
  destruct (N.to_uint n); try reflexivity; apply string_of_uint_digits.
Qed.

Lemma to_uint_nonnil (n : N) : N.to_uint n <> Decimal.Nil.
Proof.
  destruct n as [|p]; cbn; [discriminate | apply Unsigned.to_uint_nonnil].
Qed.

Lemma decimal_inj (n n' : N) : decimal n = decimal n' -> n = n'.
Proof.
  intros Heq. apply DecimalN.Unsigned.to_uint_inj.
  assert (Hsome : Some (N.to_uint n) = Some (N.to_uint n')).
  { rewrite <- (NilZero.usu (N.to_uint n)) by apply to_uint_nonnil.
    rewrite <- (NilZero.usu (N.to_uint n')) by apply to_uint_nonnil.
    unfold decimal in Heq. now rewrite Heq. }
  congruence.
Qed.

(** Two digit strings, each followed by the same non-digit, are cut at the
    same place. *)
Lemma digits_then_separator (c : ascii) (s1 s2 r1 r2 : string) :
  is_digit c = false ->
  all_digits s1 = true -> all_digits s2 = true ->
  (s1 ++ String c r1 = s2 ++ String c r2)%string ->
  s1 = s2 /\ r1 = r2.
Proof.
  intros Hc. revert s2.
  induction s1 as [|a1 s1 IH]; intros [|a2 s2] Hd1 Hd2 Heq; cbn in *.
  - split; congruence.
  - injection Heq as Hhead _. subst a2.
    rewrite Hc in Hd2. discriminate.
  - injection Heq as Hhead _. subst a1.
    rewrite Hc in Hd1. discriminate.
  - apply andb_true_iff in Hd1 as [_ Hd1].
    apply andb_true_iff in Hd2 as [_ Hd2].
    injection Heq as Hhead Htail.
    destruct (IH s2 Hd1 Hd2 Htail) as [-> ->]. now subst.
Qed.

Lemma string_tail_eq (a : ascii) (s s' : string) :
  String a s = String a s' -> s = s'.
Proof. congruence. Qed.

Lemma check_message_inj (loc loc' : source_location) :
  check_message loc = check_message loc' -> loc = loc'.
Proof.
  destruct loc as [l c f], loc' as [l' c' f'].
  rewrite !check_message_spelled. cbn [append].
  intros Heq.
  repeat apply string_tail_eq in Heq.
  apply digits_then_separator in Heq as [Hl Heq];
    [| reflexivity | apply decimal_digits ..].
  apply digits_then_separator in Heq as [Hc Heq];
    [| reflexivity | apply decimal_digits ..].
  apply decimal_inj in Hl, Hc.
  repeat apply string_tail_eq in Heq.
  now subst.
Qed.

(** C1. The checked single-argument constructor, in both its [const&] and
    its [&&] form: on a null argument it throws [std::runtime_error] whose
    message is ["nn check failed at <line>:<column> of <file>"] for the
    location of the construction, and no handle comes into being; on a
    non-null argument it returns the handle that stores the argument. The
    message determines the location it was built from. *)
Theorem checked_constructor_rejects_null
    {PtrType : Type} `{PtrLike PtrType}
    (arg : PtrType) (loc : source_location) :
  (is_null arg = true ->
     nn_ctor arg loc = Throw (runtime_error (check_message loc)) /\
     fst (nn_ctor_rv arg loc) = Throw (runtime_error (check_message loc)) /\
     (forall h, nn_ctor arg loc <> Ret h) /\
     (forall h, fst (nn_ctor_rv arg loc) <> Ret h)) /\
  (is_null arg = false ->
     nn_ctor arg loc = Ret (mk_nn arg) /\
     fst (nn_ctor_rv arg loc) = Ret (mk_nn arg)) /\
  check_message loc =
    ("nn check failed at " ++ decimal (line loc) ++ ":"
       ++ decimal (column loc) ++ " of " ++ file_name loc)%string /\
  (forall loc', check_message loc = check_message loc' -> loc = loc').
Proof.
  repeat split.
  - now apply nn_ctor_null.
  - rewrite nn_ctor_rv_fst. now apply nn_ctor_null.
  - intros h. rewrite nn_ctor_null by assumption. discriminate.
  - intros h. rewrite nn_ctor_rv_fst, nn_ctor_null by assumption.
    discriminate.
  - now apply nn_ctor_nonnull.
  - rewrite nn_ctor_rv_fst. now apply nn_ctor_nonnull.
  - apply check_message_inj.
Qed.

(** Constructing from an empty [std::shared_ptr] at line 12, column 30 of
    main.cpp, and from a raw pointer to address 4096. *)
Lemma checked_constructor_rejects_null_witness :
  nn_ctor shared_nullptr (SourceLocation 12 30 "main.cpp") =
    Throw (runtime_error "nn check failed at 12:30 of main.cpp") /\
  nn_ctor (RawPtr 4096) (SourceLocation 12 30 "main.cpp") =
    Ret (mk_nn (RawPtr 4096)).
Proof.
  split.
  - exact (proj1 (proj1 (checked_constructor_rejects_null
                           shared_nullptr (SourceLocation 12 30 "main.cpp"))
                    eq_refl)).
  - exact (proj1 (proj1 (proj2 (checked_constructor_rejects_null
                           (RawPtr 4096) (SourceLocation 12 30 "main.cpp")))
                    eq_refl)).
Defined.

(** ** Hashing *)

(** C7. The hash of the handle made from a non-null [a] is the hash of
    [a]. *)
Theorem hash_of_handle_is_hash_of_value
    {T : Type} `{PtrLike T} (std_hash : T -> N)
    (a : T) (loc : source_location) (h : nn T) :
  nn_ctor a loc = Ret h ->
  nn_hash std_hash h = std_hash a.
Proof.
  intros Hctor. apply nn_ctor_Ret in Hctor as [_ ->]. reflexivity.
Qed.

(** With the hash of a raw pointer taken to be its address. *)
Lemma hash_of_handle_is_hash_of_value_witness :
  nn_hash raw_addr (mk_nn (RawPtr 4096)) = raw_addr (RawPtr 4096).
Proof.
  exact (hash_of_handle_is_hash_of_value raw_addr (RawPtr 4096)
           (SourceLocation 1 1 "main.cpp") (mk_nn (RawPtr 4096)) eq_refl).
Defined.

(** ** Comparisons *)

Section ComparisonTransparency.
Context {L R : Type} `{PtrLike L} `{PtrLike R}.
Context {cmp : Comparable L R} {cmp' : Comparable R L}.

(** C3. For the handles [ha], [hb] made from [a], [b]: [==] and [<] give
    what they give on [a] and [b], in the three operand shapes; and in
    each shape [!=] is the negation of [==], [>] is [<] with the operands
    swapped, [<=] is the negation of [>], and [>=] the negation of [<]. *)
Theorem comparisons_are_transparent
    (a : L) (b : R) (la lb : source_location) (ha : nn L) (hb : nn R) :
  nn_ctor a la = Ret ha ->
  nn_ctor b lb = Ret hb ->
  (eq_hh ha hb = ptr_eqb a b /\
   eq_hr ha b = ptr_eqb a b /\
   eq_rh a hb = ptr_eqb a b) /\
  (lt_hh ha hb = ptr_ltb a b /\
   lt_hr ha b = ptr_ltb a b /\
   lt_rh a hb = ptr_ltb a b) /\
  (ne_hh ha hb = negb (eq_hh ha hb) /\
   ne_hr ha b = negb (eq_hr ha b) /\
   ne_rh a hb = negb (eq_rh a hb)) /\
  (gt_hh ha hb = lt_hh hb ha /\
   gt_hr ha b = lt_rh b ha /\
   gt_rh a hb = lt_hr hb a) /\
  (le_hh ha hb = negb (gt_hh ha hb) /\
   le_hr ha b = negb (gt_hr ha b) /\
   le_rh a hb = negb (gt_rh a hb)) /\
  (ge_hh ha hb = negb (lt_hh ha hb) /\
   ge_hr ha b = negb (lt_hr ha b) /\
   ge_rh a hb = negb (lt_rh a hb)).
Proof.
  intros Ha Hb.
  apply nn_ctor_Ret in Ha as [_ ->].
  apply nn_ctor_Ret in Hb as [_ ->].
  repeat split.
Qed.
End ComparisonTransparency.

(** Two raw pointers, to addresses 8 and 16. *)
Lemma comparisons_are_transparent_witness :
  (eq_hh (mk_nn (RawPtr 8)) (mk_nn (RawPtr 16)) = false /\
   eq_hr (mk_nn (RawPtr 8)) (RawPtr 16) = false /\
   eq_rh (RawPtr 8) (mk_nn (RawPtr 16)) = false) /\
  (lt_hh (mk_nn (RawPtr 8)) (mk_nn (RawPtr 16)) = true /\
   lt_hr (mk_nn (RawPtr 8)) (RawPtr 16) = true /\
   lt_rh (RawPtr 8) (mk_nn (RawPtr 16)) = true).
Proof.
  set (ha := mk_nn (RawPtr 8)). set (hb := mk_nn (RawPtr 16)).
  pose proof (comparisons_are_transparent (RawPtr 8) (RawPtr 16)
                (SourceLocation 3 5 "main.cpp") (SourceLocation 4 5 "main.cpp")
                ha hb eq_refl eq_refl) as (Heq & Hlt & _).
  split; [exact Heq | exact Hlt].
Defined.

(** ** Conversion back to the underlying type *)

Section Conversions.
Context {PtrType : Type} `{PtrLike PtrType}.

Lemma nn_conv_rv_fst (h : nn PtrType) : fst (nn_conv_rv h) = ptr h.
Proof. reflexivity. Qed.

Lemma nn_conv_rv_snd (h : nn PtrType) :
  snd (nn_conv_rv h) = mk_nn (moved_from (ptr h)).
Proof. reflexivity. Qed.

Lemma as_nullable_rv_fst (h : nn PtrType) : fst (as_nullable_rv h) = ptr h.
Proof. reflexivity. Qed.

Lemma as_nullable_rv_snd (h : nn PtrType) :
  snd (as_nullable_rv h) = mk_nn (moved_from (ptr h)).
Proof. reflexivity. Qed.

Lemma rewrap (h : nn PtrType) (loc : source_location) :
  valid h -> nn_ctor (ptr h) loc = Ret h.
Proof.
  intros Hv. rewrite nn_ctor_nonnull by exact Hv. now destruct h.
Qed.

Context {cmp : Comparable PtrType PtrType}.

(** C8. A handle that holds its invariant, converted to the underlying
    type by either conversion operator or either [as_nullable], and
    wrapped again by the checked constructor, gives back the handle it
    was, which the underlying equality (reflexive) finds equal to it. For
    the [&&] conversions the handle compared with is the one before the
    move. *)
Theorem unwrap_then_rewrap
    (h : nn PtrType) (loc : source_location) :
  (forall p : PtrType, ptr_eqb p p = true) ->
  valid h ->
  (exists h', nn_ctor (nn_conv h) loc = Ret h' /\
              h' = h /\ eq_hh h' h = true) /\
  (exists h', nn_ctor (as_nullable h) loc = Ret h' /\
              h' = h /\ eq_hh h' h = true) /\
  (exists h', fst (nn_ctor_rv (fst (nn_conv_rv h)) loc) = Ret h' /\
              h' = h /\ eq_hh h' h = true) /\
  (exists h', fst (nn_ctor_rv (fst (as_nullable_rv h)) loc) = Ret h' /\
              h' = h /\ eq_hh h' h = true).
Proof.
  intros Hrefl Hv.
  assert (Hself : eq_hh h h = true) by apply Hrefl.
  repeat split; exists h;
    rewrite ?nn_ctor_rv_fst, ?nn_conv_rv_fst, ?as_nullable_rv_fst;
    unfold nn_conv, as_nullable;
    (split; [now apply rewrap | split; [reflexivity | exact Hself]]).
Qed.
End Conversions.

Lemma unique_ptr_eqb_refl (p : unique_ptr) : ptr_eqb p p = true.
Proof. apply N.eqb_refl. Qed.

Lemma shared_ptr_eqb_refl (p : shared_ptr) : ptr_eqb p p = true.
Proof. apply N.eqb_refl. Qed.

Lemma raw_ptr_eqb_refl (p : raw_ptr) : ptr_eqb p p = true.
Proof. apply N.eqb_refl. Qed.

(** A shared pointer to address 64, owned through control block 64. *)
Lemma unwrap_then_rewrap_witness :
  exists h',
    nn_ctor (as_nullable (mk_nn (SharedPtr (Some 64) 64)))
      (SourceLocation 9 3 "main.cpp") = Ret h' /\
    h' = mk_nn (SharedPtr (Some 64) 64) /\
    eq_hh h' (mk_nn (SharedPtr (Some 64) 64)) = true.
Proof.
  set (h := mk_nn (SharedPtr (Some 64) 64)).
  exact (proj1 (proj2 (unwrap_then_rewrap h (SourceLocation 9 3 "main.cpp")
                         shared_ptr_eqb_refl eq_refl))).
Defined.

(** ** The non-null invariant *)


Lemma after_moving {PtrType : Type} `{PtrLike PtrType}
    (o : handle_op) (h : nn PtrType) :
  moves_out o = true -> after o h = mk_nn (moved_from (ptr h)).
Proof. destruct o; cbn; intros Hm; (discriminate || reflexivity). Qed.

Section RvalueConversions.
Context {PtrType : Type} `{PtrLike PtrType}.



Lemma nn_conv_rv_is_move_construct (h : nn PtrType) :
  nn_conv_rv h = nn_conv_rv_with move_construct h /\
  as_nullable_rv h = as_nullable_rv_with move_construct h.
Proof. split; reflexivity. Qed.

End RvalueConversions.

Section Invariant.
Context {PtrType OtherType : Type}.
Context `{PtrLike PtrType} `{PtrLike OtherType}.
(** The constructor of [PtrType] that the member initialiser of a
    converting template calls, and the one the aliasing constructor
    calls. *)
Variable init : OtherType -> PtrType.
Variable construct2 : OtherType -> raw_ptr -> PtrType.

Lemma nn_copy_from_ptr (other : nn OtherType) :
  ptr (nn_copy_from init other) = init (ptr other).
Proof. reflexivity. Qed.

Lemma nn_move_from_ptr (other : nn OtherType) :
  ptr (fst (nn_move_from init other)) = init (ptr other).
Proof. reflexivity. Qed.

Lemma nn_move_from_source (other : nn OtherType) :
  snd (nn_move_from init other) = mk_nn (moved_from (ptr other)).
Proof. reflexivity. Qed.


End Invariant.



(** ** The type-converting constructors *)

Lemma requires_some_iff (t : type_traits) :
  (exists c, requires c t = true) <->
  is_constructible t = true \/ is_convertible t = true.
Proof.
  split.
  - intros [c Hc].
    destruct t as [constructible convertible pointer].
    destruct c, constructible, convertible; cbn in *; auto; discriminate.
  - destruct t as [constructible [|] pointer]; cbn.
    + intros _. now exists implicit_copy.
    + intros [-> | Hconv]; [now exists explicit_copy | discriminate].
Qed.

Section ConvertingConstructors.
Context {PtrType OtherType : Type}.
Context `{PtrLike PtrType} `{PtrLike OtherType}.
Variable init : OtherType -> PtrType.

(** C6, as the code has it. For any values of the three traits and of
    [is_constructible_v<PtrType, const OtherType&>]:
    - a handle can be move-constructed exactly when [PtrType] is
      constructible from [OtherType] and [OtherType] is not a raw pointer;
    - it can be copy-constructed exactly when [PtrType] is constructible
      or implicitly convertible from [OtherType], which enables a copying
      template, and [PtrType] can be initialised from a
      [const OtherType&], which lets its body instantiate;
    - a template whose [requires] clause holds is implicit exactly when
      [OtherType] converts implicitly to [PtrType], and for each value
      category there is only one such template;
    - none of the four runs the null check: each stores the converted
      pointer of the source, whatever it is, and cannot throw; a moving
      one leaves the moved-from state in the source, a copying one leaves
      the source as it was. *)
Theorem converting_constructors_follow_traits
    (t : type_traits) (from_const_ref : bool) :
  ((exists c, takes_rvalue c = true /\
              constructs_through t from_const_ref c = true) <->
     is_constructible t = true /\ is_pointer t = false) /\
  ((exists c, takes_rvalue c = false /\
              constructs_through t from_const_ref c = true) <->
     (is_constructible t = true \/ is_convertible t = true) /\
     from_const_ref = true) /\
  ((exists c, requires c t = true) <->
     is_constructible t = true \/ is_convertible t = true) /\
  (forall c, requires c t = true ->
     (is_explicit c = false <-> is_convertible t = true)) /\
  (forall c c', requires c t = true -> requires c' t = true ->
     takes_rvalue c = takes_rvalue c' -> c = c') /\
  (forall c (other : nn OtherType),
     fst (converting_construct init c other) = mk_nn (init (ptr other))) /\
  (forall c (other : nn OtherType),
     snd (converting_construct init c other) =
       if takes_rvalue c then mk_nn (moved_from (ptr other)) else other).
Proof.
  destruct t as [constructible convertible pointer].
  unfold constructs_through, body_well_formed.
  split; [| split; [| split; [| split; [| split; [| split]]]]].
  - split.
    + intros [c [Hrv Hc]].
      destruct c, constructible, convertible, pointer; cbn in *;
        auto; discriminate.
    + cbn. intros [-> ->]. destruct convertible.
      * now exists implicit_move.
      * now exists explicit_move.
  - split.
    + intros [c [Hrv Hc]].
      destruct c, constructible, convertible, from_const_ref; cbn in *;
        auto; discriminate.
    + cbn. intros [[-> | ->] ->].
      * destruct convertible.
        -- now exists implicit_copy.
        -- now exists explicit_copy.
      * now exists implicit_copy.
  - apply requires_some_iff.
  - intros c Hc.
    destruct c, constructible, convertible; cbn in *;
      split; intros; auto; discriminate.
  - intros c c' Hc Hc' Hcat.
    destruct c, c', constructible, convertible; cbn in *;
      auto; discriminate.
  - intros c other. destruct c; reflexivity.
  - intros c other. destruct c; reflexivity.
Qed.
End ConvertingConstructors.

(** [std::shared_ptr<T>] from [std::unique_ptr<T>]: constructible and
    implicitly convertible from an rvalue, not from a [const&], and not a
    raw pointer. *)
Lemma converting_constructors_follow_traits_witness :
  (exists c, takes_rvalue c = true /\
             constructs_through (TypeTraits true true false) false c = true) /\
  fst (converting_construct
         (fun u => SharedPtr (Some (unique_get u)) (unique_get u))
         implicit_move (mk_nn (UniquePtr 64))) =
    mk_nn (SharedPtr (Some 64) 64).
Proof.
  pose proof (converting_constructors_follow_traits
                (fun u => SharedPtr (Some (unique_get u)) (unique_get u))
                (TypeTraits true true false) false)
    as (Hmove & _ & _ & _ & _ & Hptr & _).
  split.
  - apply Hmove. split; reflexivity.
  - exact (Hptr implicit_move (mk_nn (UniquePtr 64))).
Defined.

(** C6 as stated fails on [std::unique_ptr<T>], which is constructible and
    implicitly convertible from a [std::unique_ptr<T>&&] but not from a
    [const std::unique_ptr<T>&]: the underlying type is constructible from
    itself, the [requires] clause of the implicit copying template holds,
    and yet no handle can be copy-constructed, for no copying template
    instantiates; a handle over [std::unique_ptr] can only be moved. And
    where the traits give convertible without constructible, the
    [requires] clause of the implicit copying template holds all the
    same. *)
Lemma unique_handle_cannot_be_copied :
  is_constructible (TypeTraits true true false) = true /\
  requires implicit_copy (TypeTraits true true false) = true /\
  (forall c, takes_rvalue c = false ->
             constructs_through (TypeTraits true true false) false c = false) /\
  constructs_through (TypeTraits true true false) false implicit_move = true /\
  is_constructible (TypeTraits false true false) = false /\
  requires implicit_copy (TypeTraits false true false) = true.
Proof.
  repeat split.
  intros c Hc. destruct c; try discriminate; reflexivity.
Qed.

(** The converting constructors accept a moved-from source without a
    word: no check stands in the way. *)
Example converting_from_moved_from_source :
  fst (converting_construct (fun p : shared_ptr => p) implicit_copy
         (after op_as_nullable_rv (mk_nn (SharedPtr (Some 64) 64)))) =
    mk_nn shared_nullptr.
Proof. reflexivity. Qed.

(** ** The raw pointee accessor *)

Lemma nn_get_member {PtrType : Type} `{PtrLike PtrType}
    (get : PtrType -> addr) (h : nn PtrType) :
  member_get = Some get -> nn_get h = Some (get (ptr h)).
Proof. intros Hget. unfold nn_get. now rewrite Hget. Qed.

(** C9, as the code has it. On a handle over [std::unique_ptr] or
    [std::shared_ptr], [get()] returns what [ptr.get()] returns, which is
    the address [operator->] gives and is non-null for a valid handle, and
    leaves the handle as it was. On a handle over a raw pointer there is no
    [ptr.get()] to call. *)
Theorem get_returns_pointee_address :
  (forall h : nn unique_ptr,
      nn_get h = Some (unique_get (ptr h)) /\
      nn_get h = Some (nn_arrow h) /\
      after op_get h = h /\
      (valid h -> nn_get h <> Some null)) /\
  (forall h : nn shared_ptr,
      nn_get h = Some (shared_get (ptr h)) /\
      nn_get h = Some (nn_arrow h) /\
      after op_get h = h /\
      (valid h -> nn_get h <> Some null)) /\
  (forall h : nn raw_ptr, nn_get h = None).
Proof.
  split; [| split].
  - intros h. repeat split.
    intros Hv [= Hnull]. unfold valid in Hv. cbn in Hv.
    rewrite Hnull in Hv. discriminate.
  - intros h. repeat split.
    intros Hv [= Hnull]. unfold valid in Hv. cbn in Hv.
    rewrite Hnull in Hv. discriminate.
  - reflexivity.
Qed.

Lemma get_returns_pointee_address_witness :
  nn_get (mk_nn (SharedPtr (Some 64) 72)) <> Some null.
Proof.
  exact (proj2 (proj2 (proj2 (proj1 (proj2 get_returns_pointee_address)
                                 (mk_nn (SharedPtr (Some 64) 72)))))
           eq_refl).
Defined.

(** C9 as stated fails on a raw pointer: the handle made from the non-null
    [int*] 4096 is valid, and [get()] has nothing to return for it. *)
Lemma get_on_raw_pointer_handle :
  nn_ctor (RawPtr 4096) (SourceLocation 7 20 "main.cpp") =
    Ret (mk_nn (RawPtr 4096)) /\
  valid (mk_nn (RawPtr 4096)) /\
  nn_get (mk_nn (RawPtr 4096)) = None.
Proof. repeat split. Qed.

(** ** Factories *)

Section Factories.
Context {T : Type}.

Lemma operator_new_Ret (v : T) (m : heap T) (a : addr) (m' : heap T) :
  operator_new v m = Ret (a, m') ->
  a = N.of_nat (S (List.length (cells m))) /\
  m' = Heap (cells m ++ [v]) (capacity m).
Proof.
  unfold operator_new.
  destruct (Nat.ltb _ _); [| discriminate].
  intros [= <- <-]. now split.
Qed.

Lemma operator_new_Throw (v : T) (m : heap T) (e : exn) :
  operator_new v m = Throw e -> e = bad_alloc.
Proof.
  unfold operator_new.
  destruct (Nat.ltb _ _); [discriminate | congruence].
Qed.

(** Freshly allocated storage is not at the null address, and holds the
    value it was initialised with. *)
Lemma operator_new_nonnull (v : T) (m : heap T) (a : addr) (m' : heap T) :
  operator_new v m = Ret (a, m') -> (a =? null) = false.
Proof.
  intros Hnew. apply operator_new_Ret in Hnew as [-> _].
  apply N.eqb_neq. unfold null. lia.
Qed.

Lemma load_new (v : T) (m : heap T) (a : addr) (m' : heap T) :
  operator_new v m = Ret (a, m') -> load m' a = Some v.
Proof.
  intros Hnew. pose proof (operator_new_nonnull _ _ _ _ Hnew) as Hnn.
  apply operator_new_Ret in Hnew as [-> ->].
  unfold load. rewrite Hnn. cbn [cells].
  replace (N.to_nat (N.pred (N.of_nat (S (List.length (cells m))))))
    with (List.length (cells m)) by lia.
  rewrite nth_error_app2 by lia.
  now rewrite Nat.sub_diag.
Qed.

(** C5. Neither factory ever throws the [std::runtime_error] of the null
    check, and whenever the allocation succeeds each returns a valid
    handle whose dereference is the value allocated. *)
Theorem factories_pass_the_check
    (v : T) (m : heap T) (loc : source_location)
    (a : addr) (m' : heap T) :
  operator_new v m = Ret (a, m') ->
  (exists h, nn_make_unique v m loc = Ret (h, m') /\
             valid h /\ nn_star m' h = Some v) /\
  (exists h, nn_make_shared v m loc = Ret (h, m') /\
             valid h /\ nn_star m' h = Some v) /\
  (forall m0 what, nn_make_unique v m0 loc <> Throw (runtime_error what)) /\
  (forall m0 what, nn_make_shared v m0 loc <> Throw (runtime_error what)).
Proof.
  intros Hnew.
  pose proof (operator_new_nonnull _ _ _ _ Hnew) as Hnn.
  pose proof (load_new _ _ _ _ Hnew) as Hload.
  split; [| split; [| split]].
  - exists (mk_nn (UniquePtr a)).
    unfold nn_make_unique, make_unique. rewrite Hnew. cbn [bind].
    rewrite nn_ctor_rv_fst, nn_ctor_nonnull by exact Hnn.
    repeat split; assumption.
  - exists (mk_nn (SharedPtr (Some a) a)).
    unfold nn_make_shared, make_shared. rewrite Hnew. cbn [bind].
    rewrite nn_ctor_rv_fst, nn_ctor_nonnull by exact Hnn.
    repeat split; assumption.
  - intros m0 what. unfold nn_make_unique, make_unique.
    destruct (operator_new v m0) as [[a0 m0'] | e] eqn:Hnew0; cbn [bind].
    + rewrite nn_ctor_rv_fst, nn_ctor_nonnull
        by exact (operator_new_nonnull _ _ _ _ Hnew0).
      discriminate.
    + apply operator_new_Throw in Hnew0 as ->. discriminate.
  - intros m0 what. unfold nn_make_shared, make_shared.
    destruct (operator_new v m0) as [[a0 m0'] | e] eqn:Hnew0; cbn [bind].
    + rewrite nn_ctor_rv_fst, nn_ctor_nonnull
        by exact (operator_new_nonnull _ _ _ _ Hnew0).
      discriminate.
    + apply operator_new_Throw in Hnew0 as ->. discriminate.
Qed.
End Factories.

(** [nn_make_unique<int>(42)] on an empty store with room for one object:
    the handle dereferences to 42. *)
Lemma factories_pass_the_check_witness :
  exists h : nn unique_ptr,
    nn_make_unique 42%Z (Heap [] 1) (SourceLocation 269 10 "nn.hpp") =
      Ret (h, Heap [42%Z] 1) /\
    valid h /\
    nn_star (Heap [42%Z] 1) h = Some 42%Z.
Proof.
  exact (proj1 (factories_pass_the_check 42%Z (Heap [] 1)
                  (SourceLocation 269 10 "nn.hpp") 1 (Heap [42%Z] 1)
                  eq_refl)).
Defined.

(** ** The dynamic cast *)

Section DynamicCast.
Variable class_id : Type.
(** The most-derived class of the object at an address, and "is, or
    derives from". *)
Variable dynamic_type : addr -> class_id.
Variable derives_from : class_id -> class_id -> bool.
Variable dynamic_cast : class_id -> addr -> addr.

(** C4. Where [dynamic_cast<T*>] of a non-null pointer succeeds exactly
    when the class of the object it points to is, or derives from, [T]:
    the cast of a valid shared handle is non-null exactly in that case;
    it then shares the owner of the handle's pointer and stores the
    pointer [dynamic_cast] returned; otherwise it is the empty
    [std::shared_ptr]. The handle, passed by [const&], is the same before
    and after. *)
Theorem dynamic_pointer_cast_sound
    (T : class_id) (org_ptr : nn shared_ptr) :
  (forall C p, p <> null ->
      (dynamic_cast C p <> null <->
       derives_from (dynamic_type p) C = true)) ->
  valid org_ptr ->
  (is_null (nn_dynamic_pointer_cast class_id dynamic_cast T org_ptr) = false
     <-> derives_from (dynamic_type (nn_arrow org_ptr)) T = true) /\
  (derives_from (dynamic_type (nn_arrow org_ptr)) T = true ->
     owner (nn_dynamic_pointer_cast class_id dynamic_cast T org_ptr) =
       owner (as_nullable org_ptr) /\
     shared_get (nn_dynamic_pointer_cast class_id dynamic_cast T org_ptr) =
       dynamic_cast T (nn_arrow org_ptr)) /\
  (derives_from (dynamic_type (nn_arrow org_ptr)) T = false ->
     nn_dynamic_pointer_cast class_id dynamic_cast T org_ptr =
       shared_nullptr) /\
  after op_get org_ptr = org_ptr /\
  after op_as_nullable org_ptr = org_ptr.
Proof.
  intros Hcast Hv.
  assert (Hp : nn_arrow org_ptr <> null).
  { unfold valid in Hv. cbn in Hv. now apply N.eqb_neq in Hv. }
  specialize (Hcast T _ Hp).
  unfold nn_dynamic_pointer_cast.
  change (shared_get (ptr org_ptr)) with (nn_arrow org_ptr).
  destruct (dynamic_cast T (nn_arrow org_ptr) =? null) eqn:Hres.
  - apply N.eqb_eq in Hres.
    assert (Hno : derives_from (dynamic_type (nn_arrow org_ptr)) T = false).
    { apply not_true_is_false. intros Hd. now apply Hcast in Hd. }
    rewrite Hno. cbn.
    repeat split; intros; try discriminate; reflexivity.
  - pose proof Hres as Hne. apply N.eqb_neq in Hne.
    apply Hcast in Hne. rewrite Hne. cbn.
    repeat split; intros; try discriminate; try reflexivity.
    exact Hres.
Qed.
End DynamicCast.

(** Two classes, [false] the base and [true] derived from it; the object at
    address 64 is of the derived class, every other one of the base. *)
Lemma dynamic_pointer_cast_sound_witness :
  nn_dynamic_pointer_cast bool
    (fun C p => if (p =? null) || negb (implb C (p =? 64)) then null else p)
    true (mk_nn (SharedPtr (Some 64) 64)) = SharedPtr (Some 64) 64 /\
  nn_dynamic_pointer_cast bool
    (fun C p => if (p =? null) || negb (implb C (p =? 64)) then null else p)
    true (mk_nn (SharedPtr (Some 80) 80)) = shared_nullptr.
Proof.
  assert (Hspec : forall (C : bool) (p : addr), p <> null ->
            ((if (p =? null) || negb (implb C (p =? 64)) then null else p)
               <> null <-> implb C (p =? 64) = true)).
  { intros C p Hp. apply N.eqb_neq in Hp. rewrite Hp. cbn [orb].
    apply N.eqb_neq in Hp.
    destruct (implb C (p =? 64)); cbn; split; intros; congruence. }
  split.
  - pose proof (dynamic_pointer_cast_sound bool (fun p => p =? 64)
                  (fun D C => implb C D) _ true
                  (mk_nn (SharedPtr (Some 64) 64)) Hspec eq_refl)
      as (_ & Hyes & _).
    destruct (Hyes eq_refl) as [Howner Hget].
    destruct (nn_dynamic_pointer_cast _ _ _ _) as [o g].
    cbn in Howner, Hget. now subst.
  - pose proof (dynamic_pointer_cast_sound bool (fun p => p =? 64)
                  (fun D C => implb C D) _ true
                  (mk_nn (SharedPtr (Some 80) 80)) Hspec eq_refl)
      as (_ & _ & Hno & _).
    exact (Hno eq_refl).
Defined.

(** * Further properties *)

(** ** nn_addr *)

Lemma load_Some_nonnull {T : Type} (m : heap T) (a : addr) (v : T) :
  load m a = Some v -> (a =? null) = false.
Proof.
  unfold load. destruct (a =? null); [discriminate | reflexivity].
Qed.

(** X1. [nn_addr] on an object that lives in the store. Where [&object]
    is the address of the object, as with the built-in operator, the check
    passes and the handle returned is valid, its [operator->] gives the
    address of the object and its dereference the object. [nn_addr] does
    evaluate [&object]: where the class of the object declares an
    [operator&] that returns the null pointer, the check throws, although
    the object is there. *)
Theorem nn_addr_of_live_object {T : Type}
    (address_of : addr -> addr)
    (m : heap T) (object : addr) (v : T) (loc : source_location) :
  load m object = Some v ->
  (address_of object = object ->
     exists h,
       nn_addr address_of object loc = Ret h /\
       valid h /\ nn_arrow h = object /\ nn_star m h = Some v) /\
  (address_of object = null ->
     nn_addr address_of object loc =
       Throw (runtime_error (check_message loc))).
Proof.
  intros Hload. split.
  - intros Hbuiltin. exists (mk_nn (RawPtr object)).
    pose proof (load_Some_nonnull _ _ _ Hload) as Hnn.
    unfold nn_addr. rewrite Hbuiltin.
    rewrite nn_ctor_rv_fst, nn_ctor_nonnull by exact Hnn.
    repeat split; assumption.
  - intros Hnull. unfold nn_addr. rewrite Hnull.
    rewrite nn_ctor_rv_fst. now apply nn_ctor_null.
Qed.

(** The second of three objects in a store, with the built-in operator and
    with an [operator&] that returns the null pointer. *)
Lemma nn_addr_of_live_object_witness :
  (exists h,
     nn_addr (fun a => a) 2 (SourceLocation 291 10 "nn.hpp") = Ret h /\
     valid h /\ nn_arrow h = 2 /\
     nn_star (Heap [10%Z; 20%Z; 30%Z] 4) h = Some 20%Z) /\
  nn_addr (fun _ => null) 2 (SourceLocation 291 10 "nn.hpp") =
    Throw (runtime_error "nn check failed at 291:10 of nn.hpp").
Proof.
  split.
  - exact (proj1 (nn_addr_of_live_object (fun a => a)
                    (Heap [10%Z; 20%Z; 30%Z] 4) 2 20%Z
                    (SourceLocation 291 10 "nn.hpp") eq_refl) eq_refl).
  - exact (proj2 (nn_addr_of_live_object (fun _ => null)
                    (Heap [10%Z; 20%Z; 30%Z] 4) 2 20%Z
                    (SourceLocation 291 10 "nn.hpp") eq_refl) eq_refl).
Defined.

(** ** The static and const casts *)

Lemma valid_shared_get (h : nn shared_ptr) :
  valid h <-> shared_get (ptr h) <> null.
Proof. unfold valid. cbn. apply N.eqb_neq. Qed.

Section StaticCastProperties.
Variable static_cast : addr -> addr.

(** X2. Where [static_cast] keeps non-null pointers non-null, the static
    cast of a valid shared handle passes the check: the handle returned
    shares the owner of the original, points where [static_cast] sends the
    original's pointer, and is the one the aliasing constructor of [nn]
    builds from the original and that target. *)
Theorem static_pointer_cast_shares_owner
    (org_ptr : nn shared_ptr) (loc : source_location) :
  (forall p, p <> null -> static_cast p <> null) ->
  valid org_ptr ->
  exists h,
    nn_static_pointer_cast static_cast org_ptr loc = Ret h /\
    valid h /\
    owner (ptr h) = owner (ptr org_ptr) /\
    nn_arrow h = static_cast (nn_arrow org_ptr) /\
    h = nn_alias shared_ptr_alias_raw org_ptr
          (mk_nn (RawPtr (static_cast (nn_arrow org_ptr)))).
Proof.
  intros Hkeep Hv. apply valid_shared_get in Hv.
  pose proof (Hkeep _ Hv) as Hres. apply N.eqb_neq in Hres.
  eexists. unfold nn_static_pointer_cast.
  rewrite nn_ctor_rv_fst, nn_ctor_nonnull by exact Hres.
  repeat split. exact Hres.
Qed.
End StaticCastProperties.

(** An upcast that moves the pointer by 8, as to a second base class. *)
Lemma static_pointer_cast_shares_owner_witness :
  exists h,
    nn_static_pointer_cast (fun p => if p =? null then null else p + 8)
      (mk_nn (SharedPtr (Some 64) 64)) (SourceLocation 308 10 "nn.hpp")
      = Ret h /\
    valid h /\
    owner (ptr h) = Some 64 /\
    nn_arrow h = 72 /\
    h = nn_alias shared_ptr_alias_raw (mk_nn (SharedPtr (Some 64) 64))
          (mk_nn (RawPtr 72)).
Proof.
  refine (static_pointer_cast_shares_owner
            (fun p => if p =? null then null else p + 8)
            (mk_nn (SharedPtr (Some 64) 64))
            (SourceLocation 308 10 "nn.hpp") _ eq_refl).
  intros p Hp. apply N.eqb_neq in Hp. rewrite Hp. unfold null. lia.
Defined.

(** X4. The const cast of a valid shared handle returns a handle with the
    very same pointer: same owner, same address. *)
Theorem const_pointer_cast_is_identity
    (org_ptr : nn shared_ptr) (loc : source_location) :
  valid org_ptr ->
  nn_const_pointer_cast org_ptr loc = Ret org_ptr.
Proof.
  intros Hv. unfold nn_const_pointer_cast, const_cast, shared_ptr_alias.
  rewrite nn_ctor_rv_fst.
  destruct org_ptr as [[o a]]. cbn in *.
  now rewrite nn_ctor_nonnull by exact Hv.
Qed.

Lemma const_pointer_cast_is_identity_witness :
  nn_const_pointer_cast (mk_nn (SharedPtr (Some 64) 72))
    (SourceLocation 327 10 "nn.hpp") = Ret (mk_nn (SharedPtr (Some 64) 72)).
Proof.
  exact (const_pointer_cast_is_identity (mk_nn (SharedPtr (Some 64) 72))
           (SourceLocation 327 10 "nn.hpp") eq_refl).
Defined.

(** ** The casts of a moved-from handle *)

Section CastsOfMovedFrom.
Variable class_id : Type.
Variable dynamic_cast : class_id -> addr -> addr.
Variable static_cast : addr -> addr.

(** X3. The casts of a null pointer being null: on a shared handle that
    was moved out of, the static and the const cast throw the
    [std::runtime_error] of the check, for the location of the
    construction inside the helper, and the dynamic cast returns the empty
    pointer. The cast helpers, unlike the converting constructors, go
    through the checked constructor. *)
Theorem casts_of_moved_from_handle
    (h : nn shared_ptr) (o : handle_op) (T : class_id)
    (loc : source_location) :
  static_cast null = null ->
  dynamic_cast T null = null ->
  moves_out o = true ->
  nn_static_pointer_cast static_cast (after o h) loc =
    Throw (runtime_error (check_message loc)) /\
  nn_const_pointer_cast (after o h) loc =
    Throw (runtime_error (check_message loc)) /\
  nn_dynamic_pointer_cast class_id dynamic_cast T (after o h) =
    shared_nullptr /\
  fst (converting_construct (fun p : shared_ptr => p) implicit_copy
         (after o h)) = mk_nn shared_nullptr.
Proof.
  intros Hs Hd Hm. rewrite after_moving by exact Hm. cbn [moved_from ptr
    shared_ptr_like].
  unfold nn_static_pointer_cast, nn_const_pointer_cast,
    nn_dynamic_pointer_cast, const_cast.
  cbn [ptr shared_get shared_nullptr as_nullable].
  rewrite Hs, Hd. repeat split.
Qed.
End CastsOfMovedFrom.

Lemma casts_of_moved_from_handle_witness :
  nn_static_pointer_cast (fun p => p)
    (after op_as_nullable_rv (mk_nn (SharedPtr (Some 64) 64)))
    (SourceLocation 308 10 "nn.hpp") =
    Throw (runtime_error "nn check failed at 308:10 of nn.hpp").
Proof.
  exact (proj1 (casts_of_moved_from_handle bool (fun _ p => p) (fun p => p)
                  (mk_nn (SharedPtr (Some 64) 64)) op_as_nullable_rv true
                  (SourceLocation 308 10 "nn.hpp") eq_refl eq_refl eq_refl)).
Defined.

(** ** The dynamic cast, wrapped again *)

Section DynamicCastRewrap.
Variable class_id : Type.
Variable dynamic_type : addr -> class_id.
Variable derives_from : class_id -> class_id -> bool.
Variable dynamic_cast : class_id -> addr -> addr.

(** X5. Under the specification of [dynamic_cast], the result of the
    dynamic cast of a valid handle is accepted by the checked constructor
    exactly when the class of the referent is, or derives from, the
    target: the handle made then shares the owner of the original;
    otherwise the constructor throws. *)
Theorem dynamic_cast_then_checked_constructor
    (T : class_id) (org_ptr : nn shared_ptr) (loc : source_location) :
  (forall C p, p <> null ->
      (dynamic_cast C p <> null <->
       derives_from (dynamic_type p) C = true)) ->
  valid org_ptr ->
  (derives_from (dynamic_type (nn_arrow org_ptr)) T = true ->
     exists h,
       nn_ctor (nn_dynamic_pointer_cast class_id dynamic_cast T org_ptr) loc
         = Ret h /\
       valid h /\
       owner (ptr h) = owner (ptr org_ptr) /\
       nn_arrow h = dynamic_cast T (nn_arrow org_ptr)) /\
  (derives_from (dynamic_type (nn_arrow org_ptr)) T = false ->
     nn_ctor (nn_dynamic_pointer_cast class_id dynamic_cast T org_ptr) loc
       = Throw (runtime_error (check_message loc))).
Proof.
  intros Hspec Hv. apply valid_shared_get in Hv.
  specialize (Hspec T _ Hv).
  unfold nn_dynamic_pointer_cast, nn_arrow. cbn [address shared_ptr_like].
  split; intros Hd.
  - apply Hspec in Hd. apply N.eqb_neq in Hd. rewrite Hd.
    eexists. rewrite nn_ctor_nonnull by exact Hd.
    repeat split. exact Hd.
  - destruct (dynamic_cast T (shared_get (ptr org_ptr)) =? null) eqn:Hres.
    + now apply nn_ctor_null.
    + apply N.eqb_neq in Hres. apply Hspec in Hres. congruence.
Qed.
End DynamicCastRewrap.

(** Two classes, [false] the base and [true] derived from it; the object at
    address 64 is of the derived class. *)
Lemma dynamic_cast_then_checked_constructor_witness :
  exists h,
    nn_ctor
      (nn_dynamic_pointer_cast bool
         (fun C p =>
            if (p =? null) || negb (implb C (p =? 64)) then null else p)
         true (mk_nn (SharedPtr (Some 64) 64)))
      (SourceLocation 5 9 "main.cpp") = Ret h /\
    valid h /\
    owner (ptr h) = Some 64 /\
    nn_arrow h = 64.
Proof.
  refine (proj1 (dynamic_cast_then_checked_constructor bool
                   (fun p => p =? 64) (fun D C => implb C D)
                   (fun C p =>
                      if (p =? null) || negb (implb C (p =? 64))
                      then null else p)
                   true (mk_nn (SharedPtr (Some 64) 64))
                   (SourceLocation 5 9 "main.cpp") _ eq_refl) eq_refl).
  intros C p Hp. apply N.eqb_neq in Hp. rewrite Hp. cbn [orb].
  apply N.eqb_neq in Hp.
  destruct (implb C (p =? 64)); cbn; split; intros; congruence.
Defined.

(** ** Comparison with nullptr *)

(** X6. A valid handle over [std::unique_ptr] or [std::shared_ptr] never
    compares equal to [nullptr], on either side, and always compares
    different from it. *)
Theorem valid_handle_is_not_nullptr :
  (forall h : nn unique_ptr,
      valid h ->
      eq_hr h nullptr = false /\ eq_rh nullptr h = false /\
      ne_hr h nullptr = true /\ ne_rh nullptr h = true) /\
  (forall h : nn shared_ptr,
      valid h ->
      eq_hr h nullptr = false /\ eq_rh nullptr h = false /\
      ne_hr h nullptr = true /\ ne_rh nullptr h = true).
Proof.
  split; intros h Hv; unfold valid in Hv; cbn in Hv;
    unfold ne_hr, ne_rh, eq_hr, eq_rh; cbn; rewrite Hv; repeat split.
Qed.

Lemma valid_handle_is_not_nullptr_witness :
  eq_hr (mk_nn (SharedPtr None 64)) nullptr = false /\
  ne_rh nullptr (mk_nn (SharedPtr None 64)) = true.
Proof.
  destruct (proj2 valid_handle_is_not_nullptr (mk_nn (SharedPtr None 64))
              eq_refl) as (Heq & _ & _ & Hne).
  split; [exact Heq | exact Hne].
Defined.

(** ** The six operators as an order *)

Section OrderOfHandles.
Context {P : Type} {cmp : Comparable P P}.
(** The address the comparisons of [P] compare. *)
Variable key : P -> addr.

(** X7. When [==] and [<] of the underlying type compare addresses, the
    six operators on two handles are the six comparisons of their
    addresses: in particular [<=] and [>=], defined as negations, are
    "less or equal" and "greater or equal", and of [<], [==], [>] exactly
    one holds. *)
Theorem operators_order_handles_by_address (l r : nn P) :
  (forall a b : P, ptr_eqb a b = (key a =? key b)) ->
  (forall a b : P, ptr_ltb a b = (key a <? key b)) ->
  eq_hh l r = (key (ptr l) =? key (ptr r)) /\
  ne_hh l r = negb (key (ptr l) =? key (ptr r)) /\
  lt_hh l r = (key (ptr l) <? key (ptr r)) /\
  gt_hh l r = (key (ptr r) <? key (ptr l)) /\
  le_hh l r = (key (ptr l) <=? key (ptr r)) /\
  ge_hh l r = (key (ptr r) <=? key (ptr l)) /\
  le_hh l r = lt_hh l r || eq_hh l r /\
  ge_hh l r = gt_hh l r || eq_hh l r /\
  (lt_hh l r = true /\ eq_hh l r = false /\ gt_hh l r = false \/
   lt_hh l r = false /\ eq_hh l r = true /\ gt_hh l r = false \/
   lt_hh l r = false /\ eq_hh l r = false /\ gt_hh l r = true).
Proof.
  intros Heq Hlt.
  unfold le_hh, ge_hh, gt_hh, ne_hh, lt_hh, eq_hh.
  rewrite !Heq, !Hlt.
  generalize (key (ptr l)) (key (ptr r)). intros x y.
  destruct (N.compare_spec x y) as [Hxy | Hxy | Hxy].
  - subst y. rewrite N.eqb_refl, N.ltb_irrefl, N.leb_refl. cbn. tauto.
  - assert (Hne : (x =? y) = false) by (apply N.eqb_neq; lia).
    assert (H1 : (x <? y) = true) by (apply N.ltb_lt; lia).
    assert (H2 : (y <? x) = false) by (apply N.ltb_ge; lia).
    assert (H3 : (x <=? y) = true) by (apply N.leb_le; lia).
    assert (H4 : (y <=? x) = false) by (apply N.leb_gt; lia).
    rewrite Hne, H1, H2, H3, H4. cbn. tauto.
  - assert (Hne : (x =? y) = false) by (apply N.eqb_neq; lia).
    assert (H1 : (x <? y) = false) by (apply N.ltb_ge; lia).
    assert (H2 : (y <? x) = true) by (apply N.ltb_lt; lia).
    assert (H3 : (x <=? y) = false) by (apply N.leb_gt; lia).
    assert (H4 : (y <=? x) = true) by (apply N.leb_le; lia).
    rewrite Hne, H1, H2, H3, H4. cbn. tauto.
Qed.
End OrderOfHandles.

Lemma operators_order_handles_by_address_witness :
  le_hh (mk_nn (UniquePtr 8)) (mk_nn (UniquePtr 16)) = true /\
  ge_hh (mk_nn (UniquePtr 8)) (mk_nn (UniquePtr 16)) = false.
Proof.
  destruct (@operators_order_handles_by_address unique_ptr unique_ptr_cmp
              unique_get (mk_nn (UniquePtr 8)) (mk_nn (UniquePtr 16))
              (fun a b => eq_refl) (fun a b => eq_refl))
    as (_ & _ & _ & _ & Hle & Hge & _).
  split; [exact Hle | exact Hge].
Defined.

(** ** Hashing and equality *)

(** X8. When the hash of the underlying type gives equal values the same
    hash, handles that compare equal hash the same, and a handle hashes as
    any underlying value it compares equal to. *)
Theorem equal_handles_hash_alike
    {T : Type} {cmp : Comparable T T} (std_hash : T -> N)
    (l r : nn T) (v : T) :
  (forall a b : T, ptr_eqb a b = true -> std_hash a = std_hash b) ->
  (eq_hh l r = true -> nn_hash std_hash l = nn_hash std_hash r) /\
  (eq_hr l v = true -> nn_hash std_hash l = std_hash v).
Proof.
  intros Hhash. split; intros Heq; apply Hhash; exact Heq.
Qed.

(** Two shared pointers to the same address through different owners, with
    the hash of a shared pointer that of its stored address. *)
Lemma equal_handles_hash_alike_witness :
  nn_hash shared_get (mk_nn (SharedPtr (Some 64) 72)) =
  nn_hash shared_get (mk_nn (SharedPtr None 72)).
Proof.
  refine (proj1 (@equal_handles_hash_alike shared_ptr shared_ptr_cmp
                   shared_get
                   (mk_nn (SharedPtr (Some 64) 72))
                   (mk_nn (SharedPtr None 72)) shared_nullptr _) eq_refl).
  intros a b Hab. now apply N.eqb_eq in Hab.
Defined.

(** ** nn_shared_from_this *)

(** X9. On an object owned by a [std::shared_ptr], [nn_shared_from_this]
    passes the check and returns a handle to the object that shares that
    ownership; two handles so obtained compare equal and hash alike,
    whatever the hash of the underlying type. *)
Theorem shared_from_this_handles_agree
    (this : enable_shared_from_this) (c : N) (l1 l2 : source_location)
    (std_hash : shared_ptr -> N) :
  this_addr this <> null ->
  weak_this this = Some c ->
  exists h1 h2,
    nn_shared_from_this this l1 = inr h1 /\
    nn_shared_from_this this l2 = inr h2 /\
    valid h1 /\
    nn_arrow h1 = this_addr this /\
    owner (ptr h1) = Some c /\
    eq_hh h1 h2 = true /\
    nn_hash std_hash h1 = nn_hash std_hash h2.
Proof.
  intros Hthis Hweak. apply N.eqb_neq in Hthis.
  exists (mk_nn (SharedPtr (Some c) (this_addr this))),
         (mk_nn (SharedPtr (Some c) (this_addr this))).
  unfold nn_shared_from_this, shared_from_this. rewrite Hweak.
  rewrite !nn_ctor_rv_fst, !nn_ctor_nonnull by exact Hthis.
  repeat split; try assumption.
  unfold eq_hh. cbn. apply N.eqb_refl.
Qed.

Lemma shared_from_this_handles_agree_witness :
  exists h1 h2,
    nn_shared_from_this (EnableSharedFromThis 64 (Some 64))
      (SourceLocation 282 12 "nn.hpp") = inr h1 /\
    nn_shared_from_this (EnableSharedFromThis 64 (Some 64))
      (SourceLocation 285 12 "nn.hpp") = inr h2 /\
    valid h1 /\
    nn_arrow h1 = 64 /\
    owner (ptr h1) = Some 64 /\
    eq_hh h1 h2 = true /\
    nn_hash shared_get h1 = nn_hash shared_get h2.
Proof.
  refine (shared_from_this_handles_agree (EnableSharedFromThis 64 (Some 64))
            64 (SourceLocation 282 12 "nn.hpp")
            (SourceLocation 285 12 "nn.hpp") shared_get _ eq_refl).
  discriminate.
Defined.

(** X10. On an object that no [std::shared_ptr] owns, [nn_shared_from_this]
    lets the [std::bad_weak_ptr] of [shared_from_this] through; and on no
    object (at a non-null address) does it fail the null check. *)
Theorem shared_from_this_unowned
    (this : enable_shared_from_this) (loc : source_location) :
  this_addr this <> null ->
  (weak_this this = None ->
     nn_shared_from_this this loc = inl bad_weak_ptr) /\
  (forall e, nn_shared_from_this this loc <> inl (thrown_exn e)).
Proof.
  intros Hthis. apply N.eqb_neq in Hthis.
  unfold nn_shared_from_this, shared_from_this.
  split.
  - intros Hweak. now rewrite Hweak.
  - intros e. destruct (weak_this this) as [c |]; [| discriminate].
    rewrite nn_ctor_rv_fst, nn_ctor_nonnull by exact Hthis. discriminate.
Qed.

Lemma shared_from_this_unowned_witness :
  nn_shared_from_this (EnableSharedFromThis 64 None)
    (SourceLocation 282 12 "nn.hpp") = inl bad_weak_ptr.
Proof.
  refine (proj1 (shared_from_this_unowned (EnableSharedFromThis 64 None)
                   (SourceLocation 282 12 "nn.hpp") _) eq_refl).
  discriminate.
Defined.

(** ** More on the factories *)

Section FactoriesMore.
Context {T : Type}.

Lemma nn_make_unique_Ret (v : T) (m : heap T) (loc : source_location)
    (h : nn unique_ptr) (m' : heap T) :
  nn_make_unique v m loc = Ret (h, m') ->
  operator_new v m = Ret (unique_get (ptr h), m').
Proof.
  unfold nn_make_unique, make_unique.
  destruct (operator_new v m) as [[a m0] | e] eqn:Hnew; cbn [bind];
    [| discriminate].
  rewrite nn_ctor_rv_fst,
    nn_ctor_nonnull by exact (operator_new_nonnull _ _ _ _ Hnew).
  cbn [bind]. intros [= <- <-]. reflexivity.
Qed.

(** X12. Two handles returned by successive calls of [nn_make_unique]
    compare different, and after the second call each still dereferences
    to the value it was made with. *)
Theorem successive_unique_handles_are_distinct
    (v1 v2 : T) (m m1 m2 : heap T) (l1 l2 : source_location)
    (h1 h2 : nn unique_ptr) :
  nn_make_unique v1 m l1 = Ret (h1, m1) ->
  nn_make_unique v2 m1 l2 = Ret (h2, m2) ->
  ne_hh h1 h2 = true /\
  nn_star m2 h1 = Some v1 /\
  nn_star m2 h2 = Some v2.
Proof.
  intros H1 H2.
  apply nn_make_unique_Ret in H1, H2.
  pose proof (load_new _ _ _ _ H2) as Hload2.
  apply operator_new_Ret in H1 as [Ha1 ->].
  apply operator_new_Ret in H2 as [Ha2 ->].
  cbn [cells capacity] in *.
  rewrite length_app in Ha2. cbn [List.length] in Ha2.
  unfold ne_hh, eq_hh, nn_star. cbn [ptr_eqb unique_ptr_cmp
    address unique_ptr_like].
  rewrite Ha1, Ha2 in *.
  repeat split.
  - apply negb_true_iff, N.eqb_neq. lia.
  - unfold load.
    replace (N.of_nat (S (List.length (cells m))) =? null) with false
      by (symmetry; apply N.eqb_neq; unfold null; lia).
    cbn [cells].
    replace (N.to_nat (N.pred (N.of_nat (S (List.length (cells m))))))
      with (List.length (cells m)) by lia.
    rewrite nth_error_app1 by (rewrite length_app; cbn; lia).
    rewrite nth_error_app2 by lia.
    now rewrite Nat.sub_diag.
  - exact Hload2.
Qed.
End FactoriesMore.

Lemma successive_unique_handles_are_distinct_witness :
  ne_hh (mk_nn (UniquePtr 1)) (mk_nn (UniquePtr 2)) = true /\
  nn_star (Heap [42%Z; 7%Z] 2) (mk_nn (UniquePtr 1)) = Some 42%Z /\
  nn_star (Heap [42%Z; 7%Z] 2) (mk_nn (UniquePtr 2)) = Some 7%Z.
Proof.
  exact (successive_unique_handles_are_distinct 42%Z 7%Z
           (Heap [] 2) (Heap [42%Z] 2) (Heap [42%Z; 7%Z] 2)
           (SourceLocation 269 10 "nn.hpp") (SourceLocation 269 10 "nn.hpp")
           (mk_nn (UniquePtr 1)) (mk_nn (UniquePtr 2)) eq_refl eq_refl).
Defined.

(** ** Moving a unique handle *)

(** X13. Move-constructing a handle from a valid handle over
    [std::unique_ptr], through a conversion that keeps the address: the new
    handle is valid and points where the source pointed, and the source is
    left with the null pointer, so that the object has one owner, and a
    dereference of the source finds no object. *)
Theorem moving_a_unique_handle_transfers_ownership
    (construct : unique_ptr -> unique_ptr) (other : nn unique_ptr)
    (c : converting_ctor) :
  (forall p, unique_get (construct p) = unique_get p) ->
  valid other ->
  takes_rvalue c = true ->
  valid (fst (converting_construct construct c other)) /\
  nn_arrow (fst (converting_construct construct c other)) = nn_arrow other /\
  snd (converting_construct construct c other) = mk_nn unique_nullptr /\
  eq_hh (fst (converting_construct construct c other))
        (snd (converting_construct construct c other)) = false /\
  (forall (T : Type) (m : heap T),
      nn_star m (snd (converting_construct construct c other)) = None).
Proof.
  intros Hkeep Hv Hc. unfold converting_construct. rewrite Hc.
  unfold valid, nn_arrow, eq_hh in *. cbn in *.
  rewrite Hkeep. repeat split; assumption.
Qed.

Lemma moving_a_unique_handle_transfers_ownership_witness :
  snd (converting_construct (fun p : unique_ptr => p) implicit_move
         (mk_nn (UniquePtr 64))) = mk_nn unique_nullptr /\
  nn_arrow (fst (converting_construct (fun p : unique_ptr => p) implicit_move
                   (mk_nn (UniquePtr 64)))) = 64.
Proof.
  destruct (moving_a_unique_handle_transfers_ownership
              (fun p : unique_ptr => p) (mk_nn (UniquePtr 64)) implicit_move
              (fun p => eq_refl) eq_refl eq_refl)
    as (_ & Harrow & Hsrc & _).
  split; [exact Hsrc | exact Harrow].
Defined.

(** ** The aliasing constructor *)

(** X14. The two-argument constructor over [std::shared_ptr]: the handle
    it builds shares the owner of the ownership handle and points where
    the target handle points; it is valid exactly when the target is,
    whatever the state of the ownership handle, so that from an ownership
    handle that was moved out of it builds a valid handle that owns
    nothing. *)
Theorem aliasing_constructor_over_shared_ptr
    (ownership_ptr : nn shared_ptr) (target_ptr : nn raw_ptr) :
  owner (ptr (nn_alias shared_ptr_alias_raw ownership_ptr target_ptr)) =
    owner (ptr ownership_ptr) /\
  nn_arrow (nn_alias shared_ptr_alias_raw ownership_ptr target_ptr) =
    nn_arrow target_ptr /\
  (valid (nn_alias shared_ptr_alias_raw ownership_ptr target_ptr) <->
     valid target_ptr) /\
  (forall o, moves_out o = true -> valid target_ptr ->
     valid (nn_alias shared_ptr_alias_raw (after o ownership_ptr)
              target_ptr) /\
     owner (ptr (nn_alias shared_ptr_alias_raw (after o ownership_ptr)
                   target_ptr)) = None).
Proof.
  repeat split; try (intros Hv; exact Hv).
  - intros; assumption.
  - now rewrite after_moving.
Qed.

Lemma aliasing_constructor_over_shared_ptr_witness :
  valid (nn_alias shared_ptr_alias_raw
           (after op_conv_rv (mk_nn (SharedPtr (Some 64) 64)))
           (mk_nn (RawPtr 72))) /\
  owner (ptr (nn_alias shared_ptr_alias_raw
                (after op_conv_rv (mk_nn (SharedPtr (Some 64) 64)))
                (mk_nn (RawPtr 72)))) = None.
Proof.
  exact (proj2 (proj2 (proj2 (aliasing_constructor_over_shared_ptr
                                 (mk_nn (SharedPtr (Some 64) 64))
                                 (mk_nn (RawPtr 72)))))
           op_conv_rv eq_refl eq_refl).
Defined.
